(** * react-native-scan: the highlight registry and its overlay

    A shallow embedding of [src/RenderOverlay.tsx] (the module-level
    registry [highlightsState] / [listeners], [addHighlight],
    [removeHighlight], [clearHighlights] and the [RenderOverlay]
    component) and of the measurement callback of [src/index.tsx] that
    feeds it.

    The module-level variables of the source become the fields of one
    record, [World], which every operation threads explicitly.  The host
    framework objects the source relies on are kept as data:
    - an [Animated.Value] is a reference into a heap of numbers;
    - a started [Animated.timing] driver is a record in a list of running
      animations, holding the configuration and the completion callback it
      was started with;
    - a listener (the [setHighlights] dispatcher of one mounted overlay)
      is a name, and calling it is recorded in a delivery log.
    JavaScript numbers are rationals, [Date.now()] readings are integers
    (milliseconds). *)

From Stdlib Require Import QArith.
From stdpp Require Import base list strings numbers.

Local Open Scope Z_scope.

Module Layout.

(** The [layout] argument of [addHighlight]. *)
Record t := mk { x : Q; y : Q; width : Q; height : Q }.

End Layout.

Module RenderOverlay.

(** ** Data *)

(** A reference to an [Animated.Value] object. *)
Definition AnimatedValue := nat.

(** [interface Highlight]. *)
Record Highlight := {
  id : string;
  x : Q;
  y : Q;
  width : Q;
  height : Q;
  color : string;
  timestamp : Z;
  opacity : option AnimatedValue;
}.

(** A listener is the state dispatcher of one mounted overlay; two
    dispatchers are compared by identity ([!==]). *)
Definition Listener := nat.

(** The only completion callback the module ever passes to [start]:
    [() => { removeHighlight(id); }], a closure over [id]. *)
Inductive Callback :=
  | CbRemoveHighlight (i : string).

(** The configuration object given to [Animated.timing]. *)
Record TimingConfig := {
  toValue : Q;
  duration : Z;
  useNativeDriver : bool;
}.

(** A driver that has been started and has not completed yet. *)
Record Animation := {
  anim_value : AnimatedValue;
  anim_config : TimingConfig;
  anim_callback : Callback;
}.

Record World := {
  highlightsState : list Highlight;
  listeners : list Listener;
  (** what [Date.now()] returns at this point; it advances between
      event-loop turns, and inside [addHighlight] between its two reads *)
  clock : Z;
  (** the heap of [Animated.Value] objects *)
  animatedValues : list Q;
  (** the running [Animated.timing] drivers, in start order *)
  animations : list Animation;
  (** every call made to a listener, oldest first *)
  delivered : list (Listener * list Highlight);
}.

Definition init : World :=
  {| highlightsState := []; listeners := []; clock := 0;
     animatedValues := []; animations := []; delivered := [] |}.

Definition HIGHLIGHT_DURATION : Z := 750.

(** ** Host primitives *)

Definition Date_now (w : World) : Z := clock w.

(** [ms] milliseconds pass. *)
Definition tick (ms : nat) (w : World) : World :=
  {| highlightsState := highlightsState w; listeners := listeners w;
     clock := clock w + Z.of_nat ms;
     animatedValues := animatedValues w;
     animations := animations w; delivered := delivered w |}.

(** [new Animated.Value(v)] *)
Definition Animated_Value (v : Q) (w : World) : AnimatedValue * World :=
  (length (animatedValues w),
   {| highlightsState := highlightsState w; listeners := listeners w;
      clock := clock w;
      animatedValues := animatedValues w ++ [v];
      animations := animations w; delivered := delivered w |}).

(** [Animated.timing(value, config).start(callback)] *)
Definition Animated_timing_start
    (value : AnimatedValue) (config : TimingConfig) (callback : Callback)
    (w : World) : World :=
  {| highlightsState := highlightsState w; listeners := listeners w;
     clock := clock w; animatedValues := animatedValues w;
     animations := animations w ++
       [{| anim_value := value; anim_config := config;
           anim_callback := callback |}];
     delivered := delivered w |}.

(** Calling a listener: [listener(newHighlights)]. *)
Definition setHighlights (listener : Listener) (hs : list Highlight)
    (w : World) : World :=
  {| highlightsState := highlightsState w; listeners := listeners w;
     clock := clock w; animatedValues := animatedValues w;
     animations := animations w;
     delivered := delivered w ++ [(listener, hs)] |}.

(** ** The registry *)

Definition updateHighlights (newHighlights : list Highlight) (w : World)
    : World :=
  let w1 :=
    {| highlightsState := newHighlights; listeners := listeners w;
       clock := clock w; animatedValues := animatedValues w;
       animations := animations w; delivered := delivered w |} in
  fold_left (fun acc listener => setHighlights listener newHighlights acc)
            (listeners w1) w1.

Definition removeHighlight (i : string) (w : World) : World :=
  let updatedHighlights :=
    filter (fun h => id h ≠ i) (highlightsState w) in
  if negb (Nat.eqb (length updatedHighlights) (length (highlightsState w)))
  then updateHighlights updatedHighlights w
  else w.

(** The body of [addHighlight].  The source reads [Date.now()] twice:
    once for the [timestamp] of the new record, and once more, after the
    fade driver has been created and started, for the pruning pass.
    [elapsed] is the number of milliseconds by which the clock advances
    between the two reads. *)
Definition addHighlightDuring (elapsed : nat)
    (i : string) (layout : Layout.t) (c : string) (w : World) : World :=
  let '(opacity0, w1) := Animated_Value 1%Q w in
  let newHighlight :=
    {| id := i;
       x := Layout.x layout; y := Layout.y layout;
       width := Layout.width layout; height := Layout.height layout;
       color := c;
       timestamp := Date_now w1;
       opacity := Some opacity0 |} in
  let w2 :=
    tick elapsed
      (Animated_timing_start opacity0
         {| toValue := 0%Q; duration := HIGHLIGHT_DURATION;
            useNativeDriver := true |}
         (CbRemoveHighlight i) w1) in
  let now := Date_now w2 in
  let updatedHighlights :=
    filter (fun h => now - timestamp h < HIGHLIGHT_DURATION)
           (highlightsState w2) ++ [newHighlight] in
  updateHighlights updatedHighlights w2.

(** A call of [addHighlight] during which the clock does not advance:
    both reads return the same value. *)
Definition addHighlight (i : string) (layout : Layout.t) (c : string)
    (w : World) : World :=
  addHighlightDuring 0 i layout c w.

Definition clearHighlights (w : World) : World :=
  updateHighlights [] w.

(** ** The overlay component *)

(** The effect run on mount: [listeners.push(setHighlights);
    setHighlights(highlightsState)]. *)
Definition subscribe (me : Listener) (w : World) : World :=
  let w1 :=
    {| highlightsState := highlightsState w;
       listeners := listeners w ++ [me];
       clock := clock w; animatedValues := animatedValues w;
       animations := animations w; delivered := delivered w |} in
  setHighlights me (highlightsState w1) w1.

(** The cleanup returned by the effect:
    [listeners = listeners.filter((l) => l !== setHighlights)].
    (The write [mounted.current = false] goes to a ref that nothing
    reads; it is left out.) *)
Definition unsubscribe (me : Listener) (w : World) : World :=
  {| highlightsState := highlightsState w;
     listeners := filter (fun l => l ≠ me) (listeners w);
     clock := clock w; animatedValues := animatedValues w;
     animations := animations w; delivered := delivered w |}.

(** One [<Animated.View>] child of the overlay. *)
Record AnimatedView := {
  key : string;
  left : Q;
  top : Q;
  view_width : Q;
  view_height : Q;
  borderColor : string;
  view_opacity : option AnimatedValue;
}.

(** The [<View pointerEvents="none">] the component returns; children
    later in the list are painted over earlier ones. *)
Record OverlayView := {
  pointerEvents : string;
  children : list AnimatedView;
}.

(** The element built for one highlight inside [highlights.map]. *)
Definition highlightBox (h : Highlight) : AnimatedView :=
  {| key := id h; left := x h; top := y h;
     view_width := width h; view_height := height h;
     borderColor := color h; view_opacity := opacity h |}.

Definition render (highlights : list Highlight) : OverlayView :=
  {| pointerEvents := "none";
     children := fmap highlightBox highlights |}.

(** The local state of the overlay whose dispatcher is [me]: the last
    collection delivered to it, if any. *)
Definition localState (me : Listener) (w : World)
    : option (list Highlight) :=
  list.last (fmap snd (filter (fun d => fst d = me) (delivered w))).

(** ** Completion of a fade driver *)

Definition runCallback (cb : Callback) (w : World) : World :=
  match cb with
  | CbRemoveHighlight i => removeHighlight i w
  end.

(** The [k]-th running driver reaches the end of its duration: the value
    it drives is at [toValue], the driver is gone, its callback runs. *)
Definition completeAnimation (k : nat) (w : World) : World :=
  match animations w !! k with
  | None => w
  | Some a =>
      runCallback (anim_callback a)
        {| highlightsState := highlightsState w; listeners := listeners w;
           clock := clock w;
           animatedValues :=
             <[anim_value a := toValue (anim_config a)]> (animatedValues w);
           animations := delete k (animations w);
           delivered := delivered w |}
  end.

(** ** Event-loop turns *)

(** [EAdd] is a call of [addHighlight] during which the clock does not
    advance; [EUnmount] is the cleanup of the overlay's effect. *)
Inductive Event :=
  | EAdd (i : string) (layout : Layout.t) (c : string)
  | EAnimationEnd (k : nat)
  | EClear
  | EMount (me : Listener)
  | EUnmount (me : Listener)
  | ETick (ms : nat).

Definition step (e : Event) (w : World) : World :=
  match e with
  | EAdd i layout c => addHighlight i layout c w
  | EAnimationEnd k => completeAnimation k w
  | EClear => clearHighlights w
  | EMount me => subscribe me w
  | EUnmount me => unsubscribe me w
  | ETick ms => tick ms w
  end.

Definition run (es : list Event) (w : World) : World :=
  fold_left (fun acc e => step e acc) es w.

Definition is_add (e : Event) : bool :=
  match e with
  | EAdd _ _ _ => true
  | _ => false
  end.

(** The ids of the active highlights, in collection order. *)
Definition activeIds (w : World) : list string :=
  fmap id (highlightsState w).

(** What a call added to the delivery log. *)
Definition deliveredSince (w w' : World) : list (Listener * list Highlight) :=
  drop (length (delivered w)) (delivered w').

(** The record [addHighlight] builds for its arguments in [w]. *)
Definition newHighlightOf (i : string) (layout : Layout.t) (c : string)
    (w : World) : Highlight :=
  {| id := i;
     x := Layout.x layout; y := Layout.y layout;
     width := Layout.width layout; height := Layout.height layout;
     color := c; timestamp := clock w;
     opacity := Some (length (animatedValues w)) |}.

(** The collection an add would leave if it worked with one time [now]
    for both the creation time of the new highlight and the age test:
    the previous collection without the highlights of age 750 ms or
    more at [now], then the new highlight created at [now]. *)
Definition addAtOneTime (now : Z)
    (i : string) (layout : Layout.t) (c : string) (w : World)
    : list Highlight :=
  filter (fun h => ¬ (HIGHLIGHT_DURATION <= now - timestamp h))
         (highlightsState w) ++
  [{| id := i;
      x := Layout.x layout; y := Layout.y layout;
      width := Layout.width layout; height := Layout.height layout;
      color := c; timestamp := now;
      opacity := Some (length (animatedValues w)) |}].

(** The survivors of the age test of [addHighlight] at time [now]. *)
Definition prune (now : Z) (hs : list Highlight) : list Highlight :=
  filter (fun h => now - timestamp h < HIGHLIGHT_DURATION) hs.

(** The age of a highlight, and expiry as the specification words it:
    [now - createdAt >= DISPLAY_DURATION]. *)
Definition age (now : Z) (h : Highlight) : Z := now - timestamp h.

Definition expired (now : Z) (h : Highlight) : Prop :=
  HIGHLIGHT_DURATION <= age now h.

Global Instance expired_dec now h : Decision (expired now h).
Proof. unfold expired. apply _. Defined.

End RenderOverlay.

(** * The caller: the measurement callback of [src/index.tsx] *)

Module Scan.
Import RenderOverlay.

(** The two fields of [ScanOptions] the measurement callback reads. *)
Record ScanOptions := {
  renderTimeThresholdWarn : option Q;
  renderTimeThresholdError : option Q;
}.

(** [a > b] on numbers. *)
Definition Qgtb (a b : Q) : bool := negb (Qle_bool a b).

Section MeasureCallback.

(** How a template literal prints a number. *)
Variable Number_toString : Q -> string.

(** The callback handed to [viewRef.current.measure] inside
    [handleLayout]; [componentName], [duration] and [start] are the
    variables of the enclosing render it closes over. *)
Definition measureCallback
    (currentOptions : ScanOptions)
    (componentName : string) (duration0 start : Q)
    (width0 height0 pageX pageY : Q) (w : World) : World :=
  if Qle_bool width0 0 || Qle_bool height0 0 then w
  else
    let layout := Layout.mk pageX pageY width0 height0 in
    let color0 :=
      if Qgtb duration0 (default 50%Q (renderTimeThresholdError currentOptions))
      then "rgba(255, 0, 0, 0.5)"
      else if Qgtb duration0 (default 16%Q (renderTimeThresholdWarn currentOptions))
      then "rgba(255, 255, 0, 0.5)"
      else "rgba(0, 255, 0, 0.5)" in
    let highlightId :=
      componentName +:+ "-" +:+ Number_toString start in
    addHighlight highlightId layout color0 w.

End MeasureCallback.

End Scan.

(** * The public API of [src/index.tsx] *)

Module ScanApi.
Import RenderOverlay.

(** An optional property of an options object: the key is absent, the
    key is present and holds [undefined], or it holds a value. *)
Inductive Field (T : Type) : Type :=
  | Absent
  | Undefined
  | Val (v : T).

Arguments Absent {T}.
Arguments Undefined {T}.
Arguments Val {T} v.

(** One property of [{...target, ...source}]: a key of [source] wins,
    also when it holds [undefined]. *)
Definition spread {T : Type} (target source : Field T) : Field T :=
  match source with
  | Absent => target
  | _ => source
  end.

(** The truth value of a boolean property in a condition. *)
Definition truthy (f : Field bool) : bool :=
  match f with
  | Val b => b
  | _ => false
  end.

Inductive AnimationSpeed := slow | fast | off.

(** A callback supplied by the user, by identity. *)
Definition Handler := nat.

(** [interface ScanOptions]. *)
Record ScanOptions := {
  enabled : Field bool;
  log : Field bool;
  animationSpeed : Field AnimationSpeed;
  renderTimeThresholdWarn : Field Q;
  renderTimeThresholdError : Field Q;
  trackUnnecessaryRenders : Field bool;
  dangerouslyForceRunInProduction : Field bool;
  onRenderStart : Field Handler;
  onRender : Field Handler;
  onRenderFinish : Field Handler;
}.

(** [{...target, ...source}] *)
Definition assign (target source : ScanOptions) : ScanOptions :=
  {| enabled := spread (enabled target) (enabled source);
     log := spread (log target) (log source);
     animationSpeed := spread (animationSpeed target) (animationSpeed source);
     renderTimeThresholdWarn :=
       spread (renderTimeThresholdWarn target) (renderTimeThresholdWarn source);
     renderTimeThresholdError :=
       spread (renderTimeThresholdError target)
              (renderTimeThresholdError source);
     trackUnnecessaryRenders :=
       spread (trackUnnecessaryRenders target) (trackUnnecessaryRenders source);
     dangerouslyForceRunInProduction :=
       spread (dangerouslyForceRunInProduction target)
              (dangerouslyForceRunInProduction source);
     onRenderStart := spread (onRenderStart target) (onRenderStart source);
     onRender := spread (onRender target) (onRender source);
     onRenderFinish := spread (onRenderFinish target) (onRenderFinish source) |}.

(** [{...o, enabled: b}] *)
Definition withEnabled (b : bool) (o : ScanOptions) : ScanOptions :=
  {| enabled := Val b;
     log := log o;
     animationSpeed := animationSpeed o;
     renderTimeThresholdWarn := renderTimeThresholdWarn o;
     renderTimeThresholdError := renderTimeThresholdError o;
     trackUnnecessaryRenders := trackUnnecessaryRenders o;
     dangerouslyForceRunInProduction := dangerouslyForceRunInProduction o;
     onRenderStart := onRenderStart o;
     onRender := onRender o;
     onRenderFinish := onRenderFinish o |}.

(** The object [{}]. *)
Definition noOptions : ScanOptions :=
  {| enabled := Absent; log := Absent; animationSpeed := Absent;
     renderTimeThresholdWarn := Absent; renderTimeThresholdError := Absent;
     trackUnnecessaryRenders := Absent;
     dangerouslyForceRunInProduction := Absent;
     onRenderStart := Absent; onRender := Absent; onRenderFinish := Absent |}.

Definition defaultOptions : ScanOptions :=
  {| enabled := Val true;
     log := Val false;
     animationSpeed := Val fast;
     renderTimeThresholdWarn := Val 16%Q;
     renderTimeThresholdError := Val 50%Q;
     trackUnnecessaryRenders := Val false;
     dangerouslyForceRunInProduction := Val false;
     onRenderStart := Absent; onRender := Absent; onRenderFinish := Absent |}.

(** One entry of [RenderData]; [props] is a reference to the copied
    props object, when one was taken. *)
Record RenderInfo := {
  info_duration : Q;
  info_timestamp : Q;
  info_props : option nat;
}.

Inductive Level := LOG | WARN.

(** The module-level variables of [index.tsx], the console, and the
    registry of the overlay module. *)
Record ScanState := {
  currentOptions : ScanOptions;
  isInitialized : bool;
  (** [React.createElement] is the patched function ([true]) or
      [originalCreateElement] ([false]) *)
  createElementPatched : bool;
  (** the own keys of [renderTimings], in insertion order *)
  renderTimings : list (string * list RenderInfo);
  console : list (Level * string);
  overlay : World;
}.

(** The state when the module has been loaded. *)
Definition loaded : ScanState :=
  {| currentOptions := defaultOptions;
     isInitialized := false;
     createElementPatched := false;
     renderTimings := [];
     console := [];
     overlay := init |}.

Definition setCurrentOptions (o : ScanOptions) (st : ScanState) : ScanState :=
  {| currentOptions := o; isInitialized := isInitialized st;
     createElementPatched := createElementPatched st;
     renderTimings := renderTimings st; console := console st;
     overlay := overlay st |}.

Definition setIsInitialized (b : bool) (st : ScanState) : ScanState :=
  {| currentOptions := currentOptions st; isInitialized := b;
     createElementPatched := createElementPatched st;
     renderTimings := renderTimings st; console := console st;
     overlay := overlay st |}.

Definition print (l : Level) (msg : string) (st : ScanState) : ScanState :=
  {| currentOptions := currentOptions st; isInitialized := isInitialized st;
     createElementPatched := createElementPatched st;
     renderTimings := renderTimings st;
     console := console st ++ [(l, msg)];
     overlay := overlay st |}.

(** [React.createElement = (type, props, ...children) => ...] *)
Definition patchCreateElement (st : ScanState) : ScanState :=
  {| currentOptions := currentOptions st; isInitialized := isInitialized st;
     createElementPatched := true;
     renderTimings := renderTimings st; console := console st;
     overlay := overlay st |}.

(** [React.createElement = originalCreateElement] *)
Definition restoreCreateElement (st : ScanState) : ScanState :=
  {| currentOptions := currentOptions st; isInitialized := isInitialized st;
     createElementPatched := false;
     renderTimings := renderTimings st; console := console st;
     overlay := overlay st |}.

Section Api.

(** The global [__DEV__]. *)
Variable DEV : bool.

Definition initializeScan (options : ScanOptions) (st : ScanState)
    : ScanState :=
  if isInitialized st
     && negb (truthy (dangerouslyForceRunInProduction options))
     && negb DEV
  then print WARN "[react-native-scan] Already initialized. Skipping." st
  else
    let isDev := DEV in
    let shouldEnable :=
      match enabled options with
      | Val b => b
      | _ => isDev
      end in
    let st1 :=
      setCurrentOptions
        (withEnabled
           (shouldEnable
            && negb (truthy (dangerouslyForceRunInProduction options)))
           (assign defaultOptions options))
        st in
    let st2 :=
      if truthy (dangerouslyForceRunInProduction (currentOptions st1))
      then print WARN
             "[react-native-scan] Running in production mode. This is not recommended and may impact performance."
             st1
      else st1 in
    if truthy (enabled (currentOptions st2)) && negb (isInitialized st2)
    then
      setIsInitialized true
        (patchCreateElement
           (print LOG "[react-native-scan] Initializing..." st2))
    else if negb (truthy (enabled (currentOptions st2))) && isInitialized st2
    then
      setIsInitialized false
        (restoreCreateElement
           (print LOG "[react-native-scan] Disabling..." st2))
    else st2.

End Api.

Definition setOptions (options : ScanOptions) (st : ScanState) : ScanState :=
  let previousEnabledState := enabled (currentOptions st) in
  let st1 := setCurrentOptions (assign (currentOptions st) options) st in
  if truthy (enabled (currentOptions st1))
     && negb (truthy previousEnabledState)
     && negb (isInitialized st1)
  then
    setIsInitialized true
      (patchCreateElement
         (print LOG "[react-native-scan] Enabling via setOptions..." st1))
  else if negb (truthy (enabled (currentOptions st1)))
          && truthy previousEnabledState
          && isInitialized st1
  then
    setIsInitialized false
      (restoreCreateElement
         (print LOG "[react-native-scan] Disabling via setOptions..." st1))
  else st1.

(** [return { ...currentOptions }] *)
Definition getOptions (st : ScanState) : ScanOptions :=
  assign noOptions (currentOptions st).

(** [return { ...renderTimings }] *)
Definition getReport (st : ScanState) : list (string * list RenderInfo) :=
  renderTimings st.

Definition cleanupScan (st : ScanState) : ScanState :=
  if isInitialized st
  then
    let st1 := setIsInitialized false (restoreCreateElement st) in
    let st2 :=
      {| currentOptions := currentOptions st1;
         isInitialized := isInitialized st1;
         createElementPatched := createElementPatched st1;
         renderTimings := [];
         console := console st1;
         overlay := overlay st1 |} in
    let st3 :=
      {| currentOptions := currentOptions st2;
         isInitialized := isInitialized st2;
         createElementPatched := createElementPatched st2;
         renderTimings := renderTimings st2;
         console := console st2;
         overlay := clearHighlights (overlay st2) |} in
    print LOG "[react-native-scan] Cleaned up." st3
  else st.

(** ** The patched [createElement] *)

(** What the patched function looks at in its [type] argument. *)
Record ElementType := {
  isFunction : bool;
  displayName : option string;
  name : option string;
}.

(** [a || b] where [a] is a string or [undefined]. *)
Definition orElse (a : option string) (b : string) : string :=
  match a with
  | Some (String c rest) => String c rest
  | _ => b
  end.

Definition componentNameFromType (type : ElementType) : string :=
  orElse (displayName type) (orElse (name type) "Unknown").

(** [WrappedComponent], with the [displayName] the source assigns. *)
Definition wrappedComponent (originalType : ElementType) : ElementType :=
  {| isFunction := true;
     displayName :=
       Some ("Scanned(" +:+
             orElse (displayName originalType)
                    (orElse (name originalType) "Component") +:+ ")");
     name := Some "WrappedComponent" |}.

(** The type the patched function hands to [originalCreateElement]. *)
Definition patchedCreateElement (type : ElementType) (st : ScanState)
    : ElementType :=
  let componentNameFromType := componentNameFromType type in
  if String.eqb componentNameFromType "RenderOverlay"
     || String.prefix "Scanned(" componentNameFromType
  then type
  else if isFunction type && truthy (enabled (currentOptions st))
  then wrappedComponent type
  else type.

(** [React.createElement], whichever function it currently is. *)
Definition createElement (type : ElementType) (st : ScanState)
    : ElementType :=
  if createElementPatched st then patchedCreateElement type st else type.

(** ** Calls *)

Inductive Call :=
  | CInitializeScan (options : ScanOptions)
  | CSetOptions (options : ScanOptions)
  | CCleanupScan.

Definition call (DEV : bool) (c : Call) (st : ScanState) : ScanState :=
  match c with
  | CInitializeScan options => initializeScan DEV options st
  | CSetOptions options => setOptions options st
  | CCleanupScan => cleanupScan st
  end.

Definition calls (DEV : bool) (cs : list Call) (st : ScanState) : ScanState :=
  fold_left (fun acc c => call DEV c acc) cs st.

(** What the measurement callback reads of the current options:
    [currentOptions.renderTimeThresholdWarn ?? 16] and
    [currentOptions.renderTimeThresholdError ?? 50] fall back on the
    default for an absent key and for [undefined] alike. *)
Definition nullishToOption {T : Type} (f : Field T) : option T :=
  match f with
  | Val v => Some v
  | _ => None
  end.

Definition thresholds (o : ScanOptions) : Scan.ScanOptions :=
  {| Scan.renderTimeThresholdWarn :=
       nullishToOption (renderTimeThresholdWarn o);
     Scan.renderTimeThresholdError :=
       nullishToOption (renderTimeThresholdError o) |}.

(** ** Vocabulary for the properties *)

(** Whether the options of an [initializeScan] call ask for a running
    scanner: [enabled] if it is given, [__DEV__] otherwise, and in either
    case only without [dangerouslyForceRunInProduction]. *)
Definition asksToRun (DEV : bool) (o : ScanOptions) : bool :=
  match enabled o with
  | Val b => b
  | _ => DEV
  end
  && negb (truthy (dangerouslyForceRunInProduction o)).

(** The guard at the top of [initializeScan]. *)
Definition skipped (DEV : bool) (o : ScanOptions) (st : ScanState) : bool :=
  isInitialized st
  && negb (truthy (dangerouslyForceRunInProduction o))
  && negb DEV.

(** [createElement] is patched exactly when the module says it is
    initialized. *)
Definition patchTracksFlag (st : ScanState) : Prop :=
  createElementPatched st = isInitialized st.

(** The module is initialized exactly when the current options say
    [enabled]. *)
Definition flagTracksEnabled (st : ScanState) : Prop :=
  isInitialized st = truthy (enabled (currentOptions st)).

(** Two states that differ at most in what was printed. *)
Definition sameButConsole (st st' : ScanState) : Prop :=
  currentOptions st = currentOptions st'
  /\ isInitialized st = isInitialized st'
  /\ createElementPatched st = createElementPatched st'
  /\ renderTimings st = renderTimings st'
  /\ overlay st = overlay st'.

End ScanApi.

(** * Worlds the registry can be in *)

Module Reach.
Import RenderOverlay.

(** A world is reachable when some sequence of event-loop turns leads to
    it from the state the module is loaded in. *)
Definition reachable (w : World) : Prop := exists es, w = run es init.








End Reach.

(** * Concrete runs *)

Module Scenario.
Import RenderOverlay.

(** The rectangle of the specification's scenario. *)
Definition box : Layout.t := Layout.mk 10 20 100 40.

(** A measurement that came back empty. *)
Definition emptyBox : Layout.t := Layout.mk 0 0 0 0.

(** A highlight [A] added at time 0, then 800 ms pass. *)
Definition hlA : Highlight := newHighlightOf "A" box "warn" init.


(** A highlight [A] added at time 0, then 749 ms pass. *)
Definition worldA749 : World :=
  run [EAdd "A" box "warn"; ETick 749] init.

(** One mounted overlay, and the same id added twice in a row. *)
Definition twiceR1 : World :=
  run [EMount 0%nat; EAdd "r1" box "warn"; EAdd "r1" box "error"] init.

(** Three additions in the order A, B, C. *)
Definition worldABC : World :=
  run [EAdd "A" box "ok"; EAdd "B" box "warn"; EAdd "C" box "error"] init.

(** Two overlays mounted on an empty registry. *)
Definition twoOverlays : World :=
  run [EMount 0%nat; EMount 1%nat] init.

(** Two highlights exist before the overlay mounts. *)
Definition lateMount : World :=
  run [EAdd "r1" box "warn"; EAdd "r2" box "error"] init.

(** The turns that follow a clear in the late-callback run: both fade
    drivers of [twiceR1] complete, time passes, an overlay mounts. *)
Definition lateTurns : list Event :=
  [EAnimationEnd 0; EAnimationEnd 0; ETick 10; EMount 3%nat].

(** Some options and a render for the measurement callback. *)
Definition someOptions : Scan.ScanOptions :=
  {| Scan.renderTimeThresholdWarn := None;
     Scan.renderTimeThresholdError := None |}.

End Scenario.

(** * Concrete states of the scanner *)

Module ApiScenario.
Import RenderOverlay ScanApi.

(** [{ log: true }], the options of the example application. *)
Definition logging : ScanOptions :=
  {| enabled := Absent; log := Val true; animationSpeed := Absent;
     renderTimeThresholdWarn := Absent; renderTimeThresholdError := Absent;
     trackUnnecessaryRenders := Absent;
     dangerouslyForceRunInProduction := Absent;
     onRenderStart := Absent; onRender := Absent; onRenderFinish := Absent |}.

(** [{ enabled: f }] *)
Definition onlyEnabled (f : Field bool) : ScanOptions :=
  {| enabled := f; log := Absent; animationSpeed := Absent;
     renderTimeThresholdWarn := Absent; renderTimeThresholdError := Absent;
     trackUnnecessaryRenders := Absent;
     dangerouslyForceRunInProduction := Absent;
     onRenderStart := Absent; onRender := Absent; onRenderFinish := Absent |}.

(** [{ enabled: true, dangerouslyForceRunInProduction: true }] *)
Definition forced : ScanOptions :=
  {| enabled := Val true; log := Absent; animationSpeed := Absent;
     renderTimeThresholdWarn := Absent; renderTimeThresholdError := Absent;
     trackUnnecessaryRenders := Absent;
     dangerouslyForceRunInProduction := Val true;
     onRenderStart := Absent; onRender := Absent; onRenderFinish := Absent |}.

(** The example application in development: [initializeScan({log: true})]
    on the freshly loaded module. *)
Definition running : ScanState := initializeScan true logging loaded.

(** A production build that asked for the scanner. *)
Definition runningInProduction : ScanState :=
  initializeScan false (onlyEnabled (Val true)) loaded.

(** A running scanner whose overlay registry is [Scenario.twiceR1]. *)
Definition runningWithHighlights : ScanState :=
  {| currentOptions := currentOptions running;
     isInitialized := isInitialized running;
     createElementPatched := createElementPatched running;
     renderTimings := [("Row", [{| info_duration := 3%Q;
                                   info_timestamp := 12.5%Q;
                                   info_props := None |}])];
     console := console running;
     overlay := Scenario.twiceR1 |}.

(** A function component called [Row], and a host component. *)
Definition rowComponent : ElementType :=
  {| isFunction := true; displayName := None; name := Some "Row" |}.

Definition hostComponent : ElementType :=
  {| isFunction := false; displayName := None; name := None |}.

End ApiScenario.

(** * Properties *)

Module RenderOverlayFacts.
Import RenderOverlay Scenario.

(** ** Lists *)

Lemma filter_same_length {A} (P : A -> Prop) `{!forall a, Decision (P a)}
    (l : list A) :
  length (filter P l) = length l -> filter P l = l.
Proof.
  induction l as [|a l IH]; [reflexivity|].
  rewrite filter_cons. destruct (decide (P a)) as [Ha|Ha]; simpl.
  - intros E. f_equal. apply IH. lia.
  - intros E. pose proof (length_filter P l). lia.
Qed.

Lemma filter_all {A} (P : A -> Prop) `{!forall a, Decision (P a)}
    (l : list A) :
  (forall a, a ∈ l -> P a) -> filter P l = l.
Proof.
  induction l as [|a l IH]; intros Hall; [reflexivity|].
  rewrite filter_cons, decide_True by (apply Hall; left).
  f_equal. apply IH. intros b Hb. apply Hall. now right.
Qed.

(** ** Notification *)

Lemma notify_all (hs : list Highlight) (ls : list Listener) (w : World) :
  fold_left (fun acc listener => setHighlights listener hs acc) ls w =
  {| highlightsState := highlightsState w; listeners := listeners w;
     clock := clock w; animatedValues := animatedValues w;
     animations := animations w;
     delivered := delivered w ++ fmap (fun l => (l, hs)) ls |}.
Proof.
  revert w. induction ls as [|l ls IH]; intros w; simpl.
  - rewrite app_nil_r. now destruct w.
  - rewrite IH. simpl. now rewrite <- app_assoc.
Qed.

Lemma updateHighlights_unfold (hs : list Highlight) (w : World) :
  updateHighlights hs w =
  {| highlightsState := hs; listeners := listeners w;
     clock := clock w; animatedValues := animatedValues w;
     animations := animations w;
     delivered := delivered w ++ fmap (fun l => (l, hs)) (listeners w) |}.
Proof. unfold updateHighlights. now rewrite notify_all. Qed.

Lemma deliveredSince_app (w w' : World) (ds : list (Listener * list Highlight)) :
  delivered w' = delivered w ++ ds -> deliveredSince w w' = ds.
Proof.
  intros E. unfold deliveredSince. rewrite E. now rewrite drop_app_length.
Qed.

Lemma deliveredSince_same (w w' : World) :
  delivered w' = delivered w -> deliveredSince w w' = [].
Proof.
  intros E. apply deliveredSince_app. now rewrite app_nil_r.
Qed.

(** ** The three registry operations, field by field *)

Lemma addHighlight_unfold i layout c w :
  addHighlight i layout c w =
  let hs := prune (clock w) (highlightsState w) ++ [newHighlightOf i layout c w] in
  {| highlightsState := hs;
     listeners := listeners w;
     clock := clock w;
     animatedValues := animatedValues w ++ [1%Q];
     animations := animations w ++
       [{| anim_value := length (animatedValues w);
           anim_config := {| toValue := 0%Q; duration := 750;
                             useNativeDriver := true |};
           anim_callback := CbRemoveHighlight i |}];
     delivered := delivered w ++ fmap (fun l => (l, hs)) (listeners w) |}.
Proof.
  unfold addHighlight, addHighlightDuring. simpl.
  rewrite updateHighlights_unfold. simpl. now rewrite Z.add_0_r.
Qed.

Lemma addHighlight_collection i layout c w :
  highlightsState (addHighlight i layout c w) =
  prune (clock w) (highlightsState w) ++ [newHighlightOf i layout c w].
Proof. now rewrite addHighlight_unfold. Qed.

Lemma addHighlight_clock i layout c w :
  clock (addHighlight i layout c w) = clock w.
Proof. now rewrite addHighlight_unfold. Qed.

Lemma addHighlight_animations i layout c w :
  animations (addHighlight i layout c w) =
  animations w ++
  [{| anim_value := length (animatedValues w);
      anim_config := {| toValue := 0%Q; duration := HIGHLIGHT_DURATION;
                        useNativeDriver := true |};
      anim_callback := CbRemoveHighlight i |}].
Proof. now rewrite addHighlight_unfold. Qed.


Lemma newHighlight_survives i layout c w :
  prune (clock w) [newHighlightOf i layout c w] = [newHighlightOf i layout c w].
Proof.
  unfold prune. apply filter_singleton_True; [exact []|].
  unfold newHighlightOf, HIGHLIGHT_DURATION. simpl. lia.
Qed.

Lemma removeHighlight_absent i w :
  (forall h, h ∈ highlightsState w -> id h ≠ i) -> removeHighlight i w = w.
Proof.
  intros Hno. unfold removeHighlight.
  rewrite filter_all by exact Hno. now rewrite Nat.eqb_refl.
Qed.

Lemma removeHighlight_cases i w :
  (filter (fun h => id h ≠ i) (highlightsState w) = highlightsState w
   /\ removeHighlight i w = w)
  \/ (filter (fun h => id h ≠ i) (highlightsState w) ≠ highlightsState w
      /\ removeHighlight i w =
         updateHighlights (filter (fun h => id h ≠ i) (highlightsState w)) w).
Proof.
  unfold removeHighlight.
  destruct (Nat.eqb_spec
              (length (filter (fun h => id h ≠ i) (highlightsState w)))
              (length (highlightsState w))) as [E|E]; simpl.
  - left. split; [|reflexivity]. now apply filter_same_length.
  - right. split; [|reflexivity]. intros E'. now rewrite E' in E.
Qed.

Lemma removeHighlight_collection i w :
  highlightsState (removeHighlight i w) =
  filter (fun h => id h ≠ i) (highlightsState w).
Proof.
  destruct (removeHighlight_cases i w) as [[E ->]|[_ ->]].
  - now rewrite E.
  - now rewrite updateHighlights_unfold.
Qed.

Lemma removeHighlight_listeners i w :
  listeners (removeHighlight i w) = listeners w.
Proof.
  destruct (removeHighlight_cases i w) as [[_ ->]|[_ ->]]; [reflexivity|].
  now rewrite updateHighlights_unfold.
Qed.

Lemma removeHighlight_delivered i w :
  delivered (removeHighlight i w) = delivered w
  \/ (highlightsState (removeHighlight i w) ≠ highlightsState w
      /\ delivered (removeHighlight i w) =
         delivered w ++
         fmap (fun l => (l, highlightsState (removeHighlight i w))) (listeners w)).
Proof.
  rewrite removeHighlight_collection.
  destruct (removeHighlight_cases i w) as [[_ ->]|[N ->]]; [now left|].
  right. split; [exact N|]. now rewrite updateHighlights_unfold.
Qed.

Lemma completeAnimation_collection k w :
  highlightsState (completeAnimation k w) = highlightsState w
  \/ exists i, highlightsState (completeAnimation k w) =
               filter (fun h => id h ≠ i) (highlightsState w).
Proof.
  unfold completeAnimation. destruct (animations w !! k) as [a|]; [|now left].
  right. destruct (anim_callback a) as [i]. exists i. simpl.
  now rewrite removeHighlight_collection.
Qed.

Lemma prune_expired now hs :
  prune now hs = filter (fun h => ¬ expired now h) hs.
Proof.
  unfold prune. apply list_filter_iff. intros h.
  unfold expired, age. lia.
Qed.

(** ** Completion of a driver is a removal by id *)

Lemma completeAnimation_cases k w :
  completeAnimation k w = w
  \/ exists a w1,
       animations w !! k = Some a
       /\ highlightsState w1 = highlightsState w
       /\ listeners w1 = listeners w
       /\ delivered w1 = delivered w
       /\ completeAnimation k w = runCallback (anim_callback a) w1.
Proof.
  unfold completeAnimation. destruct (animations w !! k) as [a|]; [|now left].
  right. exists a. eexists. repeat apply conj.
  5: reflexivity. all: reflexivity.
Qed.

Lemma completeAnimation_listeners k w :
  listeners (completeAnimation k w) = listeners w.
Proof.
  destruct (completeAnimation_cases k w) as [->|(a & w1 & _ & _ & Hl & _ & ->)];
    [reflexivity|].
  destruct (anim_callback a) as [i]. simpl.
  now rewrite removeHighlight_listeners.
Qed.

Lemma completeAnimation_delivered k w :
  delivered (completeAnimation k w) = delivered w
  \/ (highlightsState (completeAnimation k w) ≠ highlightsState w
      /\ delivered (completeAnimation k w) =
         delivered w ++
         fmap (fun l => (l, highlightsState (completeAnimation k w)))
              (listeners w)).
Proof.
  destruct (completeAnimation_cases k w)
    as [->|(a & w1 & _ & Hh & Hl & Hd & ->)]; [now left|].
  destruct (anim_callback a) as [i]. simpl.
  destruct (removeHighlight_delivered i w1) as [E|[N E]].
  - left. congruence.
  - right. split; [congruence|]. rewrite E. congruence.
Qed.

Lemma completeAnimation_changed k w :
  highlightsState (completeAnimation k w) ≠ highlightsState w ->
  delivered (completeAnimation k w) =
  delivered w ++
  fmap (fun l => (l, highlightsState (completeAnimation k w))) (listeners w).
Proof.
  destruct (completeAnimation_cases k w)
    as [->|(a & w1 & _ & Hh & Hl & Hd & ->)]; [now intros []|].
  destruct (anim_callback a) as [i]. simpl.
  destruct (removeHighlight_cases i w1) as [[_ ->]|[_ ->]].
  - rewrite Hh. now intros [].
  - intros _. rewrite updateHighlights_unfold. simpl. now rewrite Hd, Hl.
Qed.

(** ** What one event-loop turn delivers *)


(** A turn that changes the collection calls every subscribed listener,
    in subscription order, with the new collection. *)
Lemma step_change_notifies_all (e : Event) (w : World) :
  highlightsState (step e w) ≠ highlightsState w ->
  deliveredSince w (step e w) =
  fmap (fun l => (l, highlightsState (step e w))) (listeners w).
Proof.
  destruct e as [i layout c|k| |me|me|ms]; simpl; intros Hne.
  - apply deliveredSince_app. now rewrite addHighlight_unfold.
  - apply deliveredSince_app. now apply completeAnimation_changed.
  - unfold clearHighlights. rewrite updateHighlights_unfold.
    now apply deliveredSince_app.
  - now destruct Hne.
  - now destruct Hne.
  - now destruct Hne.
Qed.

(** ** add *)

Lemma addHighlightDuring_unfold elapsed i layout c w :
  addHighlightDuring elapsed i layout c w =
  let now := clock w + Z.of_nat elapsed in
  let hs := prune now (highlightsState w) ++ [newHighlightOf i layout c w] in
  {| highlightsState := hs;
     listeners := listeners w;
     clock := now;
     animatedValues := animatedValues w ++ [1%Q];
     animations := animations w ++
       [{| anim_value := length (animatedValues w);
           anim_config := {| toValue := 0%Q; duration := 750;
                             useNativeDriver := true |};
           anim_callback := CbRemoveHighlight i |}];
     delivered := delivered w ++ fmap (fun l => (l, hs)) (listeners w) |}.
Proof.
  unfold addHighlightDuring. simpl. now rewrite updateHighlights_unfold.
Qed.

(** C1, as the code has it: the new highlight is stamped with the first
    clock reading of the call, and the pruning pass works with a second
    reading [now], taken after the fade driver has been started and
    never earlier than the first.  The resulting collection is the
    previous one without the highlights whose age at [now] is at least
    750 ms, followed by the new highlight in last position; each
    subscribed listener is called once, in order, with exactly that
    collection.  When the clock does not advance during the call the
    creation time is [now].  A highlight of the previous collection that
    is expired at [now], for instance one created 800 ms before [now],
    is not in the result (the call itself taking less than 750 ms). *)
Theorem C1_add_prunes_appends_notifies
    (elapsed : nat) (i : string) (layout : Layout.t) (c : string)
    (w : World) :
  let stamp := Date_now w in
  let now := Date_now (tick elapsed w) in
  let w' := addHighlightDuring elapsed i layout c w in
  let new := newHighlightOf i layout c w in
  HIGHLIGHT_DURATION = 750
  /\ timestamp new = stamp
  /\ now = stamp + Z.of_nat elapsed
  /\ stamp <= now
  /\ (elapsed = 0%nat ->
      timestamp new = now /\ w' = addHighlight i layout c w)
  /\ highlightsState w' =
       filter (fun h => ¬ expired now h) (highlightsState w) ++ [new]
  /\ listeners w' = listeners w
  /\ deliveredSince w w' =
       fmap (fun l => (l, highlightsState w')) (listeners w)
  /\ (forall a, a ∈ highlightsState w -> expired now a ->
        a ∈ highlightsState w' -> a = new)
  /\ (forall a, a ∈ highlightsState w -> expired now a ->
        (elapsed < 750)%nat -> a ∉ highlightsState w')
  /\ (forall a, a ∈ highlightsState w -> timestamp a = now - 800 ->
        (elapsed < 750)%nat -> a ∉ highlightsState w').
Proof.
  intros stamp now w' new.
  assert (Hnow : now = stamp + Z.of_nat elapsed) by reflexivity.
  assert (Hcoll : highlightsState w' =
                  filter (fun h => ¬ expired now h) (highlightsState w) ++ [new]).
  { subst w'. rewrite addHighlightDuring_unfold. simpl.
    now rewrite prune_expired. }
  assert (Hnew : forall a, a ∈ highlightsState w -> expired now a ->
                           a ∈ highlightsState w' -> a = new).
  { intros a _ Ha Hin. rewrite Hcoll in Hin.
    apply elem_of_app in Hin as [Hin|Hin].
    - apply list_elem_of_filter in Hin as [Hn _]. now destruct Hn.
    - now apply list_elem_of_singleton in Hin. }
  assert (Hexp : forall a, a ∈ highlightsState w -> expired now a ->
                           (elapsed < 750)%nat -> a ∉ highlightsState w').
  { intros a Hin Ha Hel Hin'. pose proof (Hnew a Hin Ha Hin') as ->.
    unfold expired, age, HIGHLIGHT_DURATION in Ha.
    change (timestamp new) with stamp in Ha. lia. }
  split; [reflexivity|]. split; [reflexivity|]. split; [exact Hnow|].
  split; [lia|].
  split.
  { intros ->. split.
    - rewrite Hnow. simpl. now rewrite Z.add_0_r.
    - reflexivity. }
  split; [exact Hcoll|].
  split; [subst w'; now rewrite addHighlightDuring_unfold|].
  split.
  { apply deliveredSince_app. subst w'.
    now rewrite addHighlightDuring_unfold. }
  split; [exact Hnew|]. split; [exact Hexp|].
  intros a Hin Hts. apply Hexp; [exact Hin|].
  unfold expired, age, HIGHLIGHT_DURATION. rewrite Hts. lia.
Qed.

(** [A] is created at 0; 749 ms later an add is called during which
    51 ms pass: its pruning pass works with the reading 800 and drops
    [A]. *)
Lemma C1_add_prunes_appends_notifies_witness :
  hlA ∈ highlightsState Scenario.worldA749
  /\ timestamp hlA = Date_now (tick 51 Scenario.worldA749) - 800
  /\ (51 < 750)%nat
  /\ (hlA ∉ highlightsState
              (addHighlightDuring 51 "B" box "error" Scenario.worldA749))
  /\ activeIds (addHighlightDuring 51 "B" box "error" Scenario.worldA749)
     = ["B"].
Proof.
  assert (Hin : hlA ∈ highlightsState worldA749)
    by (vm_compute; apply list_elem_of_here).
  assert (Hts : timestamp hlA = Date_now (tick 51 worldA749) - 800)
    by (vm_compute; reflexivity).
  assert (Hel : (51 < 750)%nat) by lia.
  split; [exact Hin|]. split; [exact Hts|]. split; [exact Hel|].
  split; [|vm_compute; reflexivity].
  pose proof (C1_add_prunes_appends_notifies 51 "B" box "error" worldA749)
    as H.
  destruct H as (_ & _ & _ & _ & _ & _ & _ & _ & _ & _ & H).
  exact (H hlA Hin Hts Hel).
Defined.

(** C1 does not hold with one time [now] for both the creation time and
    the age test.  [A] is created at 0; an add is called at 749 and the
    clock moves to 750 before its second reading.  The result holds the
    new highlight alone, created at 749: with [now] = 749 the highlight
    [A] would have been kept, and with any other [now] the creation time
    of the new highlight would differ. *)
Lemma C1_counterexample :
  highlightsState (addHighlightDuring 1 "B" box "error" Scenario.worldA749)
    = [newHighlightOf "B" box "error" Scenario.worldA749]
  /\ timestamp (newHighlightOf "B" box "error" Scenario.worldA749) = 749
  /\ ¬ exists now,
        highlightsState
          (addHighlightDuring 1 "B" box "error" Scenario.worldA749)
        = addAtOneTime now "B" box "error" Scenario.worldA749.
Proof.
  assert (Hres : highlightsState
                   (addHighlightDuring 1 "B" box "error" worldA749)
                 = [newHighlightOf "B" box "error" worldA749])
    by (vm_compute; reflexivity).
  split; [exact Hres|]. split; [reflexivity|].
  intros [now H]. rewrite Hres in H. unfold addAtOneTime in H.
  assert (HA : highlightsState worldA749 = [hlA])
    by (vm_compute; reflexivity).
  rewrite HA, filter_cons, filter_nil in H.
  destruct (decide (¬ HIGHLIGHT_DURATION <= now - timestamp hlA))
    as [Hkept|Hgone].
  - discriminate H.
  - simpl in H. injection H as Hts.
    apply Hgone. unfold HIGHLIGHT_DURATION.
    change (timestamp hlA) with 0.
    assert (E749 : 0 + Z.of_nat 0 + Z.of_nat 749 = 749)
      by (vm_compute; reflexivity).
    rewrite E749 in Hts. lia.
Qed.

(** ** Identifiers *)







(** ** remove *)

Lemma removeHighlight_unchanged i w :
  highlightsState (removeHighlight i w) = highlightsState w ->
  removeHighlight i w = w.
Proof.
  rewrite removeHighlight_collection.
  destruct (removeHighlight_cases i w) as [[_ R]|[N _]]; [easy|].
  intros E. now destruct N.
Qed.

Lemma removeHighlight_twice i w :
  removeHighlight i (removeHighlight i w) = removeHighlight i w.
Proof.
  apply removeHighlight_absent. intros h Hin.
  rewrite removeHighlight_collection in Hin.
  now apply list_elem_of_filter in Hin as [Hne _].
Qed.

(** C4: removing an id that no active highlight carries returns the
    world as it was (same collection, nothing delivered); so does a second
    removal of the same id; listeners are called exactly when the
    collection changed, and then each of them once with the new
    collection. *)
Theorem C4_remove_idempotent (i : string) (w : World) :
  ((forall h, h ∈ highlightsState w -> id h ≠ i) -> removeHighlight i w = w)
  /\ removeHighlight i (removeHighlight i w) = removeHighlight i w
  /\ (highlightsState (removeHighlight i w) = highlightsState w ->
       removeHighlight i w = w
       /\ deliveredSince w (removeHighlight i w) = [])
  /\ (highlightsState (removeHighlight i w) ≠ highlightsState w ->
       deliveredSince w (removeHighlight i w) =
       fmap (fun l => (l, highlightsState (removeHighlight i w)))
            (listeners w)).
Proof.
  split; [apply removeHighlight_absent|].
  split; [apply removeHighlight_twice|].
  split.
  - intros E. apply removeHighlight_unchanged in E. rewrite E.
    split; [reflexivity|]. now apply deliveredSince_same.
  - intros N. apply deliveredSince_app.
    destruct (removeHighlight_delivered i w) as [E|[_ E]]; [|exact E].
    destruct (removeHighlight_cases i w) as [[_ R]|[_ R]].
    + rewrite R in N. now destruct N.
    + rewrite R. now rewrite updateHighlights_unfold.
Qed.

Lemma C4_remove_idempotent_witness :
  (forall h, h ∈ highlightsState Scenario.lateMount -> id h ≠ "never-added")
  /\ removeHighlight "never-added" Scenario.lateMount = Scenario.lateMount.
Proof.
  assert (Hno : forall h, h ∈ highlightsState lateMount ->
                          id h ≠ "never-added").
  { intros h Hin. vm_compute in Hin.
    apply elem_of_cons in Hin as [->|Hin]; [discriminate|].
    apply list_elem_of_singleton in Hin as ->. discriminate. }
  split; [exact Hno|].
  exact (proj1 (C4_remove_idempotent "never-added" lateMount) Hno).
Defined.

(** C10: a removal drops every active highlight that carries the id, in
    one step, and keeps all the others; after two adds with one id, the
    completion of the first of the two fade drivers leaves no highlight
    with that id. *)
Theorem C10_remove_drops_all_with_id
    (i : string) (la lb : Layout.t) (ca cb : string) (w : World) :
  highlightsState (removeHighlight i w) =
    filter (fun h => id h ≠ i) (highlightsState w)
  /\ (forall h, h ∈ highlightsState (removeHighlight i w) -> id h ≠ i)
  /\ (forall h, h ∈ highlightsState w -> id h ≠ i ->
        h ∈ highlightsState (removeHighlight i w))
  /\ (let w2 := addHighlight i lb cb (addHighlight i la ca w) in
      let firstDriver := length (animations w) in
      [newHighlightOf i la ca w;
       newHighlightOf i lb cb (addHighlight i la ca w)]
        `sublist_of` highlightsState w2
      /\ forall h, h ∈ highlightsState (completeAnimation firstDriver w2) ->
                   id h ≠ i).
Proof.
  split; [apply removeHighlight_collection|].
  split.
  { intros h Hin. rewrite removeHighlight_collection in Hin.
    now apply list_elem_of_filter in Hin as [Hne _]. }
  split.
  { intros h Hin Hne. rewrite removeHighlight_collection.
    now apply list_elem_of_filter. }
  intros w2 firstDriver. split.
  - subst w2. rewrite (addHighlight_collection i lb cb).
    rewrite addHighlight_clock, (addHighlight_collection i la ca w).
    unfold prune at 1. rewrite list.filter_app.
    fold (prune (clock w) [newHighlightOf i la ca w]).
    rewrite newHighlight_survives, <- app_assoc. simpl.
    apply sublist_inserts_l. reflexivity.
  - intros h. unfold completeAnimation.
    assert (E : animations w2 !! firstDriver =
                Some {| anim_value := length (animatedValues w);
                        anim_config := {| toValue := 0%Q; duration := 750;
                                          useNativeDriver := true |};
                        anim_callback := CbRemoveHighlight i |}).
    { subst w2 firstDriver.
      rewrite addHighlight_animations, (addHighlight_animations i la ca w).
      rewrite <- app_assoc. simpl. now rewrite list_lookup_middle. }
    rewrite E. simpl. rewrite removeHighlight_collection. simpl.
    intros Hin. now apply list_elem_of_filter in Hin as [Hne _].
Qed.

Lemma C10_remove_drops_all_with_id_witness :
  activeIds Scenario.twiceR1 = ["r1"; "r1"]
  /\ activeIds (completeAnimation 0 Scenario.twiceR1) = [].
Proof.
  split; [reflexivity|].
  pose proof (C10_remove_drops_all_with_id "r1" box box "warn" "error"
                (subscribe 0%nat init)) as (_ & _ & _ & _ & H).
  unfold activeIds.
  destruct (highlightsState (completeAnimation 0 twiceR1)) as [|h hs] eqn:E;
    [reflexivity|].
  exfalso.
  assert (Hin : h ∈ highlightsState (completeAnimation 0 twiceR1))
    by (rewrite E; apply list_elem_of_here).
  assert (Hid : id h = "r1") by (vm_compute in E; discriminate E).
  revert Hin. generalize (H h). vm_compute.
  intros H1 H2. exact (H1 H2 Hid).
Defined.

(** ** clear *)

(** C6: clear leaves the empty collection and calls every subscribed
    listener once with it, whatever the collection was before; on an
    already empty registry each listener still receives the empty
    collection. *)
Theorem C6_clear_always_notifies (w : World) :
  highlightsState (clearHighlights w) = []
  /\ listeners (clearHighlights w) = listeners w
  /\ deliveredSince w (clearHighlights w) =
       fmap (fun l => (l, [])) (listeners w)
  /\ (highlightsState w = [] ->
       forall l, l ∈ listeners w ->
                 (l, []) ∈ deliveredSince w (clearHighlights w)).
Proof.
  unfold clearHighlights. rewrite updateHighlights_unfold. simpl.
  assert (E : deliveredSince w
                {| highlightsState := []; listeners := listeners w;
                   clock := clock w; animatedValues := animatedValues w;
                   animations := animations w;
                   delivered := delivered w ++
                                fmap (fun l => (l, [])) (listeners w) |} =
              fmap (fun l => (l, [])) (listeners w))
    by now apply deliveredSince_app.
  repeat split; [exact E|].
  intros _ l Hl. rewrite E. apply list_elem_of_fmap. now exists l.
Qed.

Lemma C6_clear_always_notifies_witness :
  highlightsState Scenario.twoOverlays = []
  /\ 1%nat ∈ listeners Scenario.twoOverlays
  /\ (1%nat, []) ∈
     deliveredSince Scenario.twoOverlays (clearHighlights Scenario.twoOverlays).
Proof.
  assert (Hl : 1%nat ∈ listeners twoOverlays)
    by (vm_compute; apply list_elem_of_further, list_elem_of_here).
  split; [reflexivity|]. split; [exact Hl|].
  pose proof (C6_clear_always_notifies twoOverlays) as (_ & _ & _ & H).
  exact (H eq_refl 1%nat Hl).
Defined.

(** ** Order *)




Lemma completeAnimation_sublist k w :
  highlightsState (completeAnimation k w) `sublist_of` highlightsState w.
Proof.
  destruct (completeAnimation_collection k w) as [->|[i ->]];
    [reflexivity|apply sublist_filter].
Qed.


(** The run A, B, C from the empty registry. *)
Example C5_scenario_ABC :
  fmap key (children (render (highlightsState Scenario.worldABC))) =
  ["A"; "B"; "C"].
Proof. reflexivity. Qed.

(** ** subscribe and unsubscribe *)

Lemma step_delivers_to_listeners (e : Event) (w : World) :
  (forall me, e ≠ EMount me) ->
  deliveredSince w (step e w) = []
  \/ deliveredSince w (step e w) =
     fmap (fun l => (l, highlightsState (step e w))) (listeners w).
Proof.
  intros Hnm. destruct e as [i layout c|k| |me|me|ms]; simpl.
  - right. apply deliveredSince_app. now rewrite addHighlight_unfold.
  - destruct (completeAnimation_delivered k w) as [E|[_ E]].
    + left. now apply deliveredSince_same.
    + right. now apply deliveredSince_app.
  - right. unfold clearHighlights. rewrite updateHighlights_unfold.
    now apply deliveredSince_app.
  - now destruct (Hnm me).
  - left. now apply deliveredSince_same.
  - left. now apply deliveredSince_same.
Qed.

Lemma localState_after_call me hs w :
  localState me (setHighlights me hs w) = Some hs.
Proof.
  unfold localState, setHighlights. simpl.
  rewrite list.filter_app, fmap_app.
  rewrite (filter_singleton_True _ (me, hs) []) by reflexivity.
  simpl. apply last_snoc.
Qed.

(** C7: mounting an overlay appends its listener, calls it at once with
    the collection that is authoritative at that moment, and changes
    nothing else; from then on every turn that changes the collection
    calls it with the new collection; the cleanup removes that listener
    and no other, running it again (or for a listener that is not
    subscribed) changes nothing, and a listener that is not subscribed is
    not called by any later turn of the registry. *)
Theorem C7_subscribe_unsubscribe (me : Listener) (w : World) :
  listeners (subscribe me w) = listeners w ++ [me]
  /\ highlightsState (subscribe me w) = highlightsState w
  /\ deliveredSince w (subscribe me w) = [(me, highlightsState w)]
  /\ localState me (subscribe me w) = Some (highlightsState w)
  /\ (forall e w0, me ∈ listeners w0 ->
        highlightsState (step e w0) ≠ highlightsState w0 ->
        (me, highlightsState (step e w0)) ∈ deliveredSince w0 (step e w0))
  /\ listeners (unsubscribe me w) = filter (fun l => l ≠ me) (listeners w)
  /\ (me ∉ listeners (unsubscribe me w))
  /\ (forall l, l ≠ me -> l ∈ listeners (unsubscribe me w) <-> l ∈ listeners w)
  /\ highlightsState (unsubscribe me w) = highlightsState w
  /\ delivered (unsubscribe me w) = delivered w
  /\ unsubscribe me (unsubscribe me w) = unsubscribe me w
  /\ (me ∉ listeners w -> unsubscribe me w = w)
  /\ (forall e w0 hs, me ∉ listeners w0 -> e ≠ EMount me ->
        (me, hs) ∉ deliveredSince w0 (step e w0)).
Proof.
  split; [reflexivity|]. split; [reflexivity|].
  split; [now apply deliveredSince_app|].
  split; [apply localState_after_call|].
  split.
  { intros e w0 Hin Hne. rewrite (step_change_notifies_all e w0 Hne).
    apply list_elem_of_fmap. now exists me. }
  split; [reflexivity|].
  split.
  { simpl. intros Hin. now apply list_elem_of_filter in Hin as [Hne _]. }
  split.
  { intros l Hne. simpl. rewrite list_elem_of_filter. tauto. }
  split; [reflexivity|]. split; [reflexivity|].
  split.
  { unfold unsubscribe. simpl. f_equal. now apply list_filter_filter_l. }
  split.
  { intros Hout. unfold unsubscribe. rewrite filter_all; [now destruct w|].
    intros l Hl ->. now apply Hout. }
  intros e w0 hs Hout Hne Hin.
  destruct (step_delivers_to_listeners e w0) as [E|E].
  - intros l ->. simpl in Hin. unfold subscribe, setHighlights in Hin.
    erewrite deliveredSince_app in Hin by (simpl; reflexivity).
    apply list_elem_of_singleton in Hin. injection Hin as -> _.
    now apply Hne.
  - rewrite E in Hin. now apply elem_of_nil in Hin.
  - rewrite E in Hin. apply list_elem_of_fmap in Hin as (l' & El & Hl').
    injection El as -> _. now apply Hout.
Qed.

Lemma C7_subscribe_unsubscribe_witness :
  activeIds Scenario.lateMount = ["r1"; "r2"]
  /\ localState 7%nat (subscribe 7%nat Scenario.lateMount) =
     Some (highlightsState Scenario.lateMount)
  /\ (7%nat ∉ listeners Scenario.lateMount)
  /\ unsubscribe 7%nat Scenario.lateMount = Scenario.lateMount.
Proof.
  pose proof (C7_subscribe_unsubscribe 7%nat lateMount)
    as (_ & _ & _ & Hlocal & _ & _ & _ & _ & _ & _ & _ & Hnoop & _).
  assert (Hout : 7%nat ∉ listeners lateMount)
    by (vm_compute; apply not_elem_of_nil).
  split; [reflexivity|]. split; [exact Hlocal|].
  split; [exact Hout|exact (Hnoop Hout)].
Defined.

(** ** The fade driver *)




(** ** Late callbacks *)

Lemma step_keeps_empty (e : Event) (w : World) :
  is_add e = false -> highlightsState w = [] ->
  highlightsState (step e w) = [].
Proof.
  intros Hna Hemp. destruct e as [i layout c|k| |me|me|ms]; simpl;
    try discriminate; try exact Hemp.
  - pose proof (completeAnimation_sublist k w) as Hs. rewrite Hemp in Hs.
    now apply sublist_nil_r in Hs.
  - unfold clearHighlights. now rewrite updateHighlights_unfold.
Qed.

Lemma run_keeps_empty (es : list Event) (w : World) :
  Forall (fun e => is_add e = false) es -> highlightsState w = [] ->
  highlightsState (run es w) = [].
Proof.
  revert w. induction es as [|e es IH]; intros w Hall Hemp; [exact Hemp|].
  inversion Hall as [|e' es' He Hes]; subst. simpl. apply IH; [exact Hes|].
  now apply step_keeps_empty.
Qed.

(** C9: a fade completion, early or late, only filters the collection by
    one id: whatever it leaves was there before, in the same order; on an
    empty collection it changes nothing and calls no listener; and after a
    clear the collection stays empty through any sequence of turns that
    contains no add. *)
Theorem C9_late_callbacks_never_reinsert
    (k : nat) (es : list Event) (w : World) :
  (completeAnimation k w = w
   \/ exists a w1,
        animations w !! k = Some a
        /\ highlightsState w1 = highlightsState w
        /\ listeners w1 = listeners w
        /\ delivered w1 = delivered w
        /\ completeAnimation k w = runCallback (anim_callback a) w1)
  /\ (forall i w1, exists j, runCallback (CbRemoveHighlight i) w1 =
                             removeHighlight j w1)
  /\ highlightsState (completeAnimation k w) `sublist_of` highlightsState w
  /\ (forall h, h ∈ highlightsState (completeAnimation k w) ->
                h ∈ highlightsState w)
  /\ (highlightsState w = [] ->
       highlightsState (completeAnimation k w) = []
       /\ deliveredSince w (completeAnimation k w) = [])
  /\ (Forall (fun e => is_add e = false) es ->
       highlightsState (run es (clearHighlights w)) = []).
Proof.
  split; [apply completeAnimation_cases|].
  split; [intros i w1; now exists i|].
  split; [apply completeAnimation_sublist|].
  split.
  { intros h Hin. eapply elem_of_sublist; [exact Hin|].
    apply completeAnimation_sublist. }
  split.
  { intros Hemp.
    assert (E : highlightsState (completeAnimation k w) = []).
    { pose proof (completeAnimation_sublist k w) as Hs. rewrite Hemp in Hs.
      now apply sublist_nil_r in Hs. }
    split; [exact E|].
    destruct (completeAnimation_delivered k w) as [D|[N _]].
    - now apply deliveredSince_same.
    - rewrite E, Hemp in N. now destruct N. }
  intros Hall. apply run_keeps_empty; [exact Hall|].
  unfold clearHighlights. now rewrite updateHighlights_unfold.
Qed.

Lemma C9_late_callbacks_never_reinsert_witness :
  Forall (fun e => is_add e = false) Scenario.lateTurns
  /\ highlightsState (run Scenario.lateTurns (clearHighlights Scenario.twiceR1))
     = [].
Proof.
  assert (Hall : Forall (fun e => is_add e = false) lateTurns)
    by (repeat constructor).
  split; [exact Hall|].
  pose proof (C9_late_callbacks_never_reinsert 0 lateTurns twiceR1)
    as (_ & _ & _ & _ & _ & H).
  exact (H Hall).
Defined.

End RenderOverlayFacts.

(** * The guard on empty measurements *)

Module ScanFacts.
Import RenderOverlay Scan Scenario.

(** C3, as the code has it: the test for an empty rectangle is made by
    the measurement callback, before it calls add.  With a width or a
    height that is not positive the callback returns without touching the
    registry (nothing created, nothing delivered, no driver started);
    [addHighlight] itself performs no test and inserts a highlight for
    whatever rectangle it is given. *)
Theorem C3_measure_callback_skips_empty_rectangles
    (Number_toString : Q -> string) (currentOptions : ScanOptions)
    (componentName : string) (duration0 start : Q)
    (width0 height0 pageX pageY : Q) (w : World) :
  ((width0 <= 0)%Q \/ (height0 <= 0)%Q ->
   measureCallback Number_toString currentOptions componentName
                   duration0 start width0 height0 pageX pageY w = w)
  /\ (forall i layout c,
        highlightsState (addHighlight i layout c w) =
        prune (clock w) (highlightsState w) ++ [newHighlightOf i layout c w]).
Proof.
  split.
  - intros Hle. unfold measureCallback.
    assert (E : Qle_bool width0 0 || Qle_bool height0 0 = true).
    { apply orb_true_iff. destruct Hle as [H|H]; [left|right];
        now apply Qle_bool_iff. }
    now rewrite E.
  - intros i layout c. apply RenderOverlayFacts.addHighlight_collection.
Qed.

Lemma C3_measure_callback_skips_empty_rectangles_witness :
  ((0 <= 0)%Q \/ (0 <= 0)%Q)
  /\ measureCallback (fun _ => "12.5") someOptions "Row" 3%Q 12.5%Q
                     0%Q 0%Q 10%Q 20%Q RenderOverlay.init
     = RenderOverlay.init.
Proof.
  assert (H : (0 <= 0)%Q \/ (0 <= 0)%Q) by (left; apply Qle_refl).
  split; [exact H|].
  exact (proj1 (C3_measure_callback_skips_empty_rectangles
                  (fun _ => "12.5") someOptions "Row" 3%Q 12.5%Q
                  0%Q 0%Q 10%Q 20%Q RenderOverlay.init) H).
Defined.

(** C3 does not hold of [addHighlight] itself: called with a rectangle of
    width 0 and height 0 on the empty registry, it creates a highlight. *)
Lemma C3_counterexample :
  (Layout.width emptyBox <= 0)%Q
  /\ (Layout.height emptyBox <= 0)%Q
  /\ highlightsState (addHighlight "r1" emptyBox "warn" RenderOverlay.init)
     = [newHighlightOf "r1" emptyBox "warn" RenderOverlay.init]
  /\ highlightsState (addHighlight "r1" emptyBox "warn" RenderOverlay.init)
     ≠ highlightsState RenderOverlay.init.
Proof.
  split; [apply Qle_refl|]. split; [apply Qle_refl|].
  split; [reflexivity|]. discriminate.
Qed.

End ScanFacts.

(** * What every reachable world keeps *)

Module ReachFacts.
Import RenderOverlay Reach RenderOverlayFacts.

(** ** Runs *)

Lemma run_app (es1 es2 : list Event) (w : World) :
  run (es1 ++ es2) w = run es2 (run es1 w).
Proof. unfold run. apply fold_left_app. Qed.

Lemma reachable_init : reachable init.
Proof. now exists []. Qed.

Lemma reachable_step (e : Event) (w : World) :
  reachable w -> reachable (step e w).
Proof.
  intros [es ->]. exists (es ++ [e]). now rewrite run_app.
Qed.



(** ** The fields a removal and a completion leave alone *)






(** ** Creation order *)









(** ** Overlays follow the registry *)


Lemma localState_delivered (l : Listener) (w w' : World) :
  delivered w' = delivered w -> localState l w' = localState l w.
Proof. unfold localState. now intros ->. Qed.







(** ** References into the heap of animated values *)





(** ** Every highlight has its driver *)







(** ** Composition *)

Lemma filter_out_absent (me : Listener) (ls : list Listener) :
  me ∉ ls -> filter (fun l => l ≠ me) ls = ls.
Proof.
  intros Hout. apply filter_all. intros l Hl ->. now apply Hout.
Qed.

(** The subscription effect of the overlay followed by the cleanup it
    returns (the two closures alone, as when the effect is re-run; what
    the host does to the views of a component it really unmounts is not
    part of them) leaves the list of listeners as it was when the
    dispatcher was not subscribed before, and leaves the collection, the
    running drivers and the animated values untouched; the only trace is
    the one call the dispatcher received from the effect. *)
Theorem effect_then_cleanup (me : Listener) (w : World) :
  me ∉ listeners w ->
  unsubscribe me (subscribe me w) = setHighlights me (highlightsState w) w
  /\ listeners (unsubscribe me (subscribe me w)) = listeners w
  /\ highlightsState (unsubscribe me (subscribe me w)) = highlightsState w.
Proof.
  intros Hout.
  assert (E : filter (fun l => l ≠ me) (listeners w ++ [me]) = listeners w).
  { rewrite list.filter_app, filter_out_absent by exact Hout.
    rewrite (filter_singleton_False _ me []); [apply app_nil_r|].
    intros Hne. now apply Hne. }
  unfold unsubscribe, subscribe, setHighlights. simpl. rewrite E.
  repeat split.
Qed.


(** ** The theorems at concrete worlds *)










Lemma effect_then_cleanup_witness :
  (7%nat ∉ listeners Scenario.lateMount)
  /\ activeIds Scenario.lateMount = ["r1"; "r2"]
  /\ unsubscribe 7%nat (subscribe 7%nat Scenario.lateMount)
     = setHighlights 7%nat (highlightsState Scenario.lateMount)
                     Scenario.lateMount.
Proof.
  assert (Hout : 7%nat ∉ listeners Scenario.lateMount)
    by (vm_compute; apply not_elem_of_nil).
  split; [exact Hout|]. split; [reflexivity|].
  exact (proj1 (effect_then_cleanup 7%nat Scenario.lateMount Hout)).
Defined.


End ReachFacts.

(** * The scanner's switch *)

Module ScanApiFacts.
Import RenderOverlay ScanApi.

Ltac by_cases_on o st :=
  destruct st as [cur ini pat rt con ov];
  unfold patchTracksFlag, flagTracksEnabled in *; simpl in *;
  destruct (enabled o) as [| |[|]] eqn:?;
  destruct (dangerouslyForceRunInProduction o) as [| |[|]] eqn:?;
  destruct ini; simpl in *.

(** ** initializeScan *)

(** An [initializeScan] call that is not skipped sets the switch from its
    own arguments alone: afterwards the module is initialized, and
    [createElement] patched, exactly when the call asks to run, the
    current options are the defaults overridden by the given options
    with [enabled] set to that same value, and neither the collected
    timings nor the overlay registry have been touched. *)
Theorem initializeScan_sets_the_switch
    (DEV : bool) (o : ScanOptions) (st : ScanState) :
  patchTracksFlag st ->
  skipped DEV o st = false ->
  let st' := initializeScan DEV o st in
  isInitialized st' = asksToRun DEV o
  /\ createElementPatched st' = asksToRun DEV o
  /\ currentOptions st' =
     withEnabled (asksToRun DEV o) (assign defaultOptions o)
  /\ renderTimings st' = renderTimings st
  /\ overlay st' = overlay st.
Proof.
  unfold skipped, asksToRun, initializeScan. intros Hp Hs.
  by_cases_on o st; subst pat; destruct DEV; simpl in *;
    try discriminate Hs; repeat split; reflexivity.
Qed.

(** With [dangerouslyForceRunInProduction: true] an [initializeScan] call
    turns the scanner off, whatever [enabled] and [__DEV__] are and
    whatever the state was: afterwards [createElement] is not patched,
    the module is not initialized, [currentOptions.enabled] is [false],
    and the production warning has been printed. *)
Theorem initializeScan_forced_turns_off
    (DEV : bool) (o : ScanOptions) (st : ScanState) :
  patchTracksFlag st ->
  dangerouslyForceRunInProduction o = Val true ->
  let st' := initializeScan DEV o st in
  isInitialized st' = false
  /\ createElementPatched st' = false
  /\ enabled (currentOptions st') = Val false
  /\ (WARN, "[react-native-scan] Running in production mode. This is not recommended and may impact performance.")
     ∈ console st'.
Proof.
  unfold initializeScan. intros Hp Hf. rewrite Hf.
  destruct st as [cur ini pat rt con ov];
    unfold patchTracksFlag in *; simpl in *; subst pat.
  rewrite !andb_false_r. simpl. rewrite Hf. simpl.
  destruct ini; simpl; repeat split; try reflexivity;
    apply elem_of_app; try (right; apply list_elem_of_here).
  left. apply elem_of_app. right. apply list_elem_of_here.
Qed.

(** Calling [initializeScan] a second time with the same options changes
    nothing but the console: in production the second call is skipped
    or repeats the first, in development it repeats it. *)
Theorem initializeScan_twice
    (DEV : bool) (o : ScanOptions) (st : ScanState) :
  patchTracksFlag st ->
  sameButConsole (initializeScan DEV o (initializeScan DEV o st))
                 (initializeScan DEV o st).
Proof.
  unfold sameButConsole, initializeScan. intros Hp.
  by_cases_on o st; subst pat; destruct DEV; simpl;
    repeat split; reflexivity.
Qed.

(** In production, once the module is initialized, an [initializeScan]
    call without the force flag is skipped whatever it asks for, also
    when it asks to disable: only a warning is printed. *)
Theorem initializeScan_skipped_in_production
    (o : ScanOptions) (st : ScanState) :
  isInitialized st = true ->
  truthy (dangerouslyForceRunInProduction o) = false ->
  initializeScan false o st =
    print WARN "[react-native-scan] Already initialized. Skipping." st
  /\ sameButConsole (initializeScan false o st) st
  /\ isInitialized (initializeScan false o st) = true.
Proof.
  intros Hi Hf. unfold initializeScan. rewrite Hi, Hf. simpl.
  repeat split. exact Hi.
Qed.

(** ** The three calls together *)

Lemma call_keeps_patchTracksFlag (DEV : bool) (c : Call) (st : ScanState) :
  patchTracksFlag st -> patchTracksFlag (call DEV c st).
Proof.
  intros Hp. destruct c as [o|o|]; simpl.
  - unfold initializeScan.
    by_cases_on o st; subst pat; destruct DEV; reflexivity.
  - unfold setOptions.
    destruct st as [cur ini pat rt con ov];
      unfold patchTracksFlag in *; simpl in *; subst pat.
    destruct (truthy (spread (enabled cur) (enabled o)));
      destruct (truthy (enabled cur)); destruct ini; reflexivity.
  - unfold cleanupScan.
    destruct st as [cur ini pat rt con ov];
      unfold patchTracksFlag in *; simpl in *; subst pat.
    destruct ini; reflexivity.
Qed.

(** After any sequence of [initializeScan], [setOptions] and
    [cleanupScan] calls made on the freshly loaded module,
    [React.createElement] is the patched function exactly when
    [isInitialized] is set. *)
Theorem patch_tracks_isInitialized (DEV : bool) (cs : list Call) :
  createElementPatched (calls DEV cs loaded) =
  isInitialized (calls DEV cs loaded).
Proof.
  assert (H : forall st, patchTracksFlag st ->
                         patchTracksFlag (calls DEV cs st)).
  { induction cs as [|c cs IH]; intros st Hp; [exact Hp|].
    simpl. apply IH. now apply call_keeps_patchTracksFlag. }
  apply H. reflexivity.
Qed.

(** ** setOptions *)

(** When the module is initialized exactly if the options say [enabled]
    (as it is after an [initializeScan] that was not skipped),
    [setOptions] keeps it so: the scanner follows [enabled] through every
    update, and the patch follows the scanner. *)
Theorem setOptions_follows_enabled (o : ScanOptions) (st : ScanState) :
  flagTracksEnabled st -> patchTracksFlag st ->
  flagTracksEnabled (setOptions o st)
  /\ patchTracksFlag (setOptions o st)
  /\ currentOptions (setOptions o st) = assign (currentOptions st) o.
Proof.
  intros He Hp. unfold setOptions.
  destruct st as [cur ini pat rt con ov];
    unfold patchTracksFlag, flagTracksEnabled in *; simpl in *; subst.
  destruct (truthy (spread (enabled cur) (enabled o))) eqn:E1;
    destruct (truthy (enabled cur)) eqn:E2; simpl;
    rewrite ?E1; repeat split; reflexivity.
Qed.

(** [setOptions] alone never starts a scanner that is off while the
    current options already say [enabled]: this is the state of the
    freshly loaded module, and of a module after [cleanupScan]. *)
Theorem setOptions_cannot_start (o : ScanOptions) (st : ScanState) :
  truthy (enabled (currentOptions st)) = true ->
  isInitialized st = false ->
  isInitialized (setOptions o st) = false
  /\ createElementPatched (setOptions o st) = createElementPatched st
  /\ console (setOptions o st) = console st.
Proof.
  intros He Hi. unfold setOptions.
  destruct st as [cur ini pat rt con ov]; simpl in *; subst ini.
  rewrite He. simpl. rewrite !andb_false_r. simpl. repeat split.
Qed.

(** The merge of options objects: the empty object is neutral on both
    sides, merging is associative, so two updates in a row leave the
    options that the merged update leaves; an update with the empty
    object changes nothing at all, and [getOptions] returns the current
    options. *)
Theorem options_merge (a b c : ScanOptions) (st : ScanState) :
  assign a noOptions = a
  /\ assign noOptions a = a
  /\ assign (assign a b) c = assign a (assign b c)
  /\ currentOptions (setOptions b (setOptions a st)) =
     currentOptions (setOptions (assign a b) st)
  /\ setOptions noOptions st = st
  /\ getOptions (setOptions a st) = assign (currentOptions st) a.
Proof.
  assert (Hsp : forall T (x y z : Field T),
             spread (spread x y) z = spread x (spread y z))
    by (intros T x y [| |v]; destruct y; reflexivity).
  assert (Hsp0 : forall T (x : Field T), spread Absent x = x)
    by (intros T [| |v]; reflexivity).
  assert (H1 : forall x, assign x noOptions = x) by (now intros []).
  assert (H2 : forall x, assign noOptions x = x).
  { intros []. unfold assign. simpl. now rewrite !Hsp0. }
  assert (H3 : forall x y z, assign (assign x y) z = assign x (assign y z)).
  { intros x y z. unfold assign. simpl. now rewrite !Hsp. }
  assert (Hcur : forall x s, currentOptions (setOptions x s) =
                             assign (currentOptions s) x).
  { intros x s. unfold setOptions. simpl.
    repeat (match goal with |- context [if ?t then _ else _] =>
                              destruct t end); reflexivity. }
  split; [apply H1|]. split; [apply H2|]. split; [apply H3|].
  split; [now rewrite !Hcur, H3|].
  split.
  - unfold setOptions. rewrite H1.
    destruct st as [cur ini pat rt con ov]; simpl.
    destruct (truthy (enabled cur)); destruct ini; reflexivity.
  - unfold getOptions. now rewrite H2, Hcur.
Qed.

(** A key that is present with the value [undefined] overrides like any
    other: on a running scanner, [setOptions({enabled: undefined})]
    restores the original [createElement] and clears [isInitialized]. *)
Theorem setOptions_undefined_disables (o : ScanOptions) (st : ScanState) :
  enabled o = Undefined ->
  isInitialized st = true ->
  truthy (enabled (currentOptions st)) = true ->
  isInitialized (setOptions o st) = false
  /\ createElementPatched (setOptions o st) = false
  /\ enabled (currentOptions (setOptions o st)) = Undefined.
Proof.
  intros Ho Hi He. unfold setOptions.
  destruct st as [cur ini pat rt con ov]; simpl in *; subst ini.
  rewrite Ho, He. simpl. rewrite Ho. repeat split.
Qed.

(** ** cleanupScan *)

(** On a module that is not initialized [cleanupScan] does nothing at
    all: collected timings and active highlights stay.  On an
    initialized one it restores [createElement], clears the flag, drops
    every collected timing, empties the overlay registry and calls each
    overlay listener with the empty collection; the options, the running
    fade drivers and the listeners stay.  A second call is a no-op. *)
Theorem cleanupScan_outcome (st : ScanState) :
  (isInitialized st = false -> cleanupScan st = st)
  /\ (isInitialized st = true ->
      isInitialized (cleanupScan st) = false
      /\ createElementPatched (cleanupScan st) = false
      /\ getReport (cleanupScan st) = []
      /\ highlightsState (overlay (cleanupScan st)) = []
      /\ deliveredSince (overlay st) (overlay (cleanupScan st)) =
         fmap (fun l => (l, [])) (listeners (overlay st))
      /\ listeners (overlay (cleanupScan st)) = listeners (overlay st)
      /\ animations (overlay (cleanupScan st)) = animations (overlay st)
      /\ currentOptions (cleanupScan st) = currentOptions st)
  /\ cleanupScan (cleanupScan st) = cleanupScan st.
Proof.
  split; [|split].
  - intros Hi. unfold cleanupScan. now rewrite Hi.
  - intros Hi. unfold cleanupScan. rewrite Hi. simpl.
    unfold clearHighlights.
    rewrite RenderOverlayFacts.updateHighlights_unfold. simpl.
    repeat split.
    apply RenderOverlayFacts.deliveredSince_app. reflexivity.
  - destruct (isInitialized st) eqn:Hi; unfold cleanupScan;
      rewrite !Hi; simpl; rewrite ?Hi; reflexivity.
Qed.

(** ** The patched createElement *)

Lemma wrapped_name_is_scanned (t : ElementType) :
  exists rest, componentNameFromType (wrappedComponent t) =
               "Scanned(" +:+ rest.
Proof.
  eexists. unfold componentNameFromType, wrappedComponent. simpl.
  reflexivity.
Qed.

(** The patched [createElement] never wraps a wrapper: the component it
    builds passes through unchanged when it comes back as [type], so
    patching is idempotent.  It leaves alone every type named
    [RenderOverlay], every type that is not a function, and every type
    while the scanner is disabled; and an unpatched [createElement]
    leaves everything alone. *)
Theorem createElement_never_rewraps (t : ElementType) (st : ScanState) :
  patchedCreateElement (wrappedComponent t) st = wrappedComponent t
  /\ patchedCreateElement (patchedCreateElement t st) st =
     patchedCreateElement t st
  /\ (componentNameFromType t = "RenderOverlay" ->
      patchedCreateElement t st = t)
  /\ (isFunction t = false -> patchedCreateElement t st = t)
  /\ (truthy (enabled (currentOptions st)) = false ->
      patchedCreateElement t st = t)
  /\ (createElementPatched st = false -> createElement t st = t).
Proof.
  assert (Hw : forall t0, patchedCreateElement (wrappedComponent t0) st =
                          wrappedComponent t0).
  { intros t0. unfold patchedCreateElement.
    destruct (wrapped_name_is_scanned t0) as [rest ->].
    destruct rest; reflexivity. }
  split; [apply Hw|]. split.
  { assert (Hc : patchedCreateElement t st = wrappedComponent t
                   \/ patchedCreateElement t st = t).
    { unfold patchedCreateElement.
      destruct (_ || _); [now right|]. destruct (_ && _); [now left|now right]. }
    destruct Hc as [Hc|Hc].
    - rewrite Hc. apply Hw.
    - now rewrite !Hc. }
  split.
  { intros Hn. unfold patchedCreateElement. now rewrite Hn. }
  split.
  { intros Hf. unfold patchedCreateElement. rewrite Hf. simpl.
    now destruct (_ || _). }
  split.
  { intros He. unfold patchedCreateElement. rewrite He, andb_false_r.
    now destruct (_ || _). }
  intros Hp. unfold createElement. now rewrite Hp.
Qed.

(** ** From the options to the measurement callback *)

(** The thresholds the measurement callback works with.  After an
    [initializeScan] that is not skipped they are the given ones, and
    the built-in 16 and 50 for a threshold that is not given or given as
    [undefined].  After a [setOptions] they are the given ones, the
    previous ones for a key that is absent, and again the built-in ones
    for a key given as [undefined]: an explicit [undefined] resets a
    threshold instead of keeping it. *)
Theorem effective_thresholds (DEV : bool) (o : ScanOptions) (st : ScanState) :
  let warnOf s :=
    default 16%Q (Scan.renderTimeThresholdWarn (thresholds (currentOptions s))) in
  let errorOf s :=
    default 50%Q (Scan.renderTimeThresholdError (thresholds (currentOptions s))) in
  (skipped DEV o st = false ->
   warnOf (initializeScan DEV o st) =
     match renderTimeThresholdWarn o with Val v => v | _ => 16%Q end
   /\ errorOf (initializeScan DEV o st) =
     match renderTimeThresholdError o with Val v => v | _ => 50%Q end)
  /\ warnOf (setOptions o st) =
     match renderTimeThresholdWarn o with
     | Val v => v
     | Undefined => 16%Q
     | Absent => warnOf st
     end
  /\ errorOf (setOptions o st) =
     match renderTimeThresholdError o with
     | Val v => v
     | Undefined => 50%Q
     | Absent => errorOf st
     end.
Proof.
  intros warnOf errorOf.
  assert (Hcur : currentOptions (setOptions o st) =
                 assign (currentOptions st) o).
  { unfold setOptions. simpl.
    repeat (match goal with |- context [if ?t then _ else _] =>
                              destruct t end); reflexivity. }
  split; [|split].
  - intros Hs. unfold skipped in Hs. subst warnOf errorOf.
    unfold initializeScan. rewrite Hs. simpl.
    assert (Hopt : forall s, currentOptions s =
                     withEnabled
                       (match enabled o with Val b => b | _ => DEV end
                        && negb (truthy (dangerouslyForceRunInProduction o)))
                       (assign defaultOptions o) ->
              default 16%Q (Scan.renderTimeThresholdWarn
                              (thresholds (currentOptions s))) =
                match renderTimeThresholdWarn o with Val v => v | _ => 16%Q end
              /\ default 50%Q (Scan.renderTimeThresholdError
                                 (thresholds (currentOptions s))) =
                match renderTimeThresholdError o with
                | Val v => v | _ => 50%Q end).
    { intros s ->. simpl.
      destruct (renderTimeThresholdWarn o), (renderTimeThresholdError o);
        split; reflexivity. }
    apply Hopt.
    repeat (match goal with |- context [if ?t then _ else _] =>
                              destruct t end); reflexivity.
  - subst warnOf. simpl. rewrite Hcur. simpl.
    now destruct (renderTimeThresholdWarn o).
  - subst errorOf. simpl. rewrite Hcur. simpl.
    now destruct (renderTimeThresholdError o).
Qed.

Lemma effective_thresholds_witness :
  skipped true ApiScenario.logging loaded = false
  /\ default 16%Q
       (Scan.renderTimeThresholdWarn
          (thresholds (currentOptions ApiScenario.running))) = 16%Q.
Proof.
  split; [reflexivity|].
  exact (proj1 (proj1 (effective_thresholds true ApiScenario.logging loaded)
                  eq_refl)).
Defined.

(** ** The theorems at concrete states *)

Lemma initializeScan_sets_the_switch_witness :
  patchTracksFlag loaded
  /\ skipped true ApiScenario.logging loaded = false
  /\ isInitialized ApiScenario.running = true
  /\ createElementPatched ApiScenario.running = true.
Proof.
  assert (Hp : patchTracksFlag loaded) by reflexivity.
  assert (Hs : skipped true ApiScenario.logging loaded = false)
    by reflexivity.
  split; [exact Hp|]. split; [exact Hs|].
  destruct (initializeScan_sets_the_switch true ApiScenario.logging loaded
              Hp Hs) as (H1 & H2 & _).
  split; [exact H1|exact H2].
Defined.

Lemma initializeScan_forced_turns_off_witness :
  patchTracksFlag ApiScenario.running
  /\ dangerouslyForceRunInProduction ApiScenario.forced = Val true
  /\ isInitialized (initializeScan true ApiScenario.forced ApiScenario.running)
     = false
  /\ createElementPatched
       (initializeScan true ApiScenario.forced ApiScenario.running) = false.
Proof.
  assert (Hp : patchTracksFlag ApiScenario.running) by reflexivity.
  split; [exact Hp|]. split; [reflexivity|].
  destruct (initializeScan_forced_turns_off true ApiScenario.forced
              ApiScenario.running Hp eq_refl) as (H1 & H2 & _).
  split; [exact H1|exact H2].
Defined.

Lemma initializeScan_twice_witness :
  patchTracksFlag loaded
  /\ sameButConsole
       (initializeScan false (ApiScenario.onlyEnabled (Val true))
          ApiScenario.runningInProduction)
       ApiScenario.runningInProduction.
Proof.
  assert (Hp : patchTracksFlag loaded) by reflexivity.
  split; [exact Hp|].
  exact (initializeScan_twice false (ApiScenario.onlyEnabled (Val true))
           loaded Hp).
Defined.

Lemma initializeScan_skipped_in_production_witness :
  isInitialized ApiScenario.runningInProduction = true
  /\ truthy (dangerouslyForceRunInProduction
               (ApiScenario.onlyEnabled (Val false))) = false
  /\ isInitialized
       (initializeScan false (ApiScenario.onlyEnabled (Val false))
          ApiScenario.runningInProduction) = true.
Proof.
  split; [reflexivity|]. split; [reflexivity|].
  exact (proj2 (proj2 (initializeScan_skipped_in_production
                         (ApiScenario.onlyEnabled (Val false))
                         ApiScenario.runningInProduction
                         eq_refl eq_refl))).
Defined.

Lemma setOptions_follows_enabled_witness :
  flagTracksEnabled ApiScenario.running
  /\ patchTracksFlag ApiScenario.running
  /\ flagTracksEnabled
       (setOptions (ApiScenario.onlyEnabled (Val false)) ApiScenario.running)
  /\ isInitialized
       (setOptions (ApiScenario.onlyEnabled (Val false)) ApiScenario.running)
     = false.
Proof.
  assert (He : flagTracksEnabled ApiScenario.running) by reflexivity.
  assert (Hp : patchTracksFlag ApiScenario.running) by reflexivity.
  split; [exact He|]. split; [exact Hp|]. split; [|reflexivity].
  exact (proj1 (setOptions_follows_enabled
                  (ApiScenario.onlyEnabled (Val false))
                  ApiScenario.running He Hp)).
Defined.

Lemma setOptions_cannot_start_witness :
  truthy (enabled (currentOptions loaded)) = true
  /\ isInitialized loaded = false
  /\ isInitialized (setOptions (ApiScenario.onlyEnabled (Val true)) loaded)
     = false.
Proof.
  split; [reflexivity|]. split; [reflexivity|].
  exact (proj1 (setOptions_cannot_start (ApiScenario.onlyEnabled (Val true))
                  loaded eq_refl eq_refl)).
Defined.

Lemma setOptions_undefined_disables_witness :
  enabled (ApiScenario.onlyEnabled Undefined) = Undefined
  /\ isInitialized ApiScenario.running = true
  /\ truthy (enabled (currentOptions ApiScenario.running)) = true
  /\ createElementPatched
       (setOptions (ApiScenario.onlyEnabled Undefined) ApiScenario.running)
     = false.
Proof.
  split; [reflexivity|]. split; [reflexivity|]. split; [reflexivity|].
  exact (proj1 (proj2 (setOptions_undefined_disables
                         (ApiScenario.onlyEnabled Undefined)
                         ApiScenario.running eq_refl eq_refl eq_refl))).
Defined.

Lemma cleanupScan_outcome_witness :
  isInitialized loaded = false
  /\ cleanupScan loaded = loaded
  /\ isInitialized ApiScenario.runningWithHighlights = true
  /\ getReport (cleanupScan ApiScenario.runningWithHighlights) = []
  /\ highlightsState (overlay (cleanupScan ApiScenario.runningWithHighlights))
     = [].
Proof.
  split; [reflexivity|].
  split; [exact (proj1 (cleanupScan_outcome loaded) eq_refl)|].
  split; [reflexivity|].
  destruct (proj1 (proj2 (cleanupScan_outcome
                            ApiScenario.runningWithHighlights)) eq_refl)
    as (_ & _ & H3 & H4 & _).
  split; [exact H3|exact H4].
Defined.

Lemma createElement_never_rewraps_witness :
  isFunction ApiScenario.hostComponent = false
  /\ patchedCreateElement ApiScenario.hostComponent ApiScenario.running
     = ApiScenario.hostComponent
  /\ componentNameFromType
       (patchedCreateElement ApiScenario.rowComponent ApiScenario.running)
     = "Scanned(Row)"
  /\ patchedCreateElement
       (patchedCreateElement ApiScenario.rowComponent ApiScenario.running)
       ApiScenario.running
     = patchedCreateElement ApiScenario.rowComponent ApiScenario.running.
Proof.
  destruct (createElement_never_rewraps ApiScenario.hostComponent
              ApiScenario.running) as (_ & _ & _ & Hhost & _).
  destruct (createElement_never_rewraps ApiScenario.rowComponent
              ApiScenario.running) as (_ & Hidem & _).
  split; [reflexivity|]. split; [exact (Hhost eq_refl)|].
  split; [reflexivity|exact Hidem].
Defined.

End ScanApiFacts.

(** * The measurement callback once more *)

Module MeasureFacts.
Import RenderOverlay Scan.

Lemma positive_not_le (q : Q) : (0 < q)%Q -> Qle_bool q 0 = false.
Proof.
  intros Hpos. destruct (Qle_bool q 0) eqn:E; [|reflexivity].
  apply Qle_bool_iff in E. exfalso. exact (Qlt_not_le _ _ Hpos E).
Qed.

Lemma Qgtb_true (a b : Q) : Qgtb a b = true <-> (b < a)%Q.
Proof.
  unfold Qgtb. destruct (Qle_bool a b) eqn:E; simpl.
  - apply Qle_bool_iff in E. split; [discriminate|].
    intros Hlt. exfalso. exact (Qlt_not_le _ _ Hlt E).
  - split; [intros _|reflexivity]. apply Qnot_le_lt. intros Hle.
    apply Qle_bool_iff in Hle. congruence.
Qed.

Lemma Qgtb_false (a b : Q) : Qgtb a b = false <-> (a <= b)%Q.
Proof.
  unfold Qgtb. destruct (Qle_bool a b) eqn:E; simpl.
  - apply Qle_bool_iff in E. split; [intros _; exact E|reflexivity].
  - split; [discriminate|]. intros Hle. apply Qle_bool_iff in Hle.
    congruence.
Qed.

(** For a rectangle of positive width and height the measurement
    callback adds one highlight whose id is the component name, a dash
    and the render's start time, whose rectangle is the measured one, and
    whose colour is red when the render took longer than the error
    threshold (default 50), else yellow when it took longer than the
    warning threshold (default 16), else green; a duration equal to a
    threshold does not reach it, and with a warning threshold that is not
    below the error threshold yellow is never used. *)
Theorem measureCallback_colour
    (Number_toString : Q -> string) (currentOptions : ScanOptions)
    (componentName : string) (duration0 start : Q)
    (width0 height0 pageX pageY : Q) (w : World) :
  (0 < width0)%Q -> (0 < height0)%Q ->
  let err := default 50%Q (renderTimeThresholdError currentOptions) in
  let warn := default 16%Q (renderTimeThresholdWarn currentOptions) in
  exists c,
    measureCallback Number_toString currentOptions componentName
                    duration0 start width0 height0 pageX pageY w =
    addHighlight (componentName +:+ "-" +:+ Number_toString start)
                 (Layout.mk pageX pageY width0 height0) c w
    /\ ((err < duration0)%Q -> c = "rgba(255, 0, 0, 0.5)")
    /\ ((duration0 <= err)%Q -> (warn < duration0)%Q ->
        c = "rgba(255, 255, 0, 0.5)")
    /\ ((duration0 <= err)%Q -> (duration0 <= warn)%Q ->
        c = "rgba(0, 255, 0, 0.5)")
    /\ ((err <= warn)%Q -> c ≠ "rgba(255, 255, 0, 0.5)").
Proof.
  intros Hw Hh err warn. unfold measureCallback.
  rewrite (positive_not_le _ Hw), (positive_not_le _ Hh). simpl.
  fold err warn.
  destruct (Qgtb duration0 err) eqn:Ee.
  - apply Qgtb_true in Ee. eexists. split; [reflexivity|].
    split; [reflexivity|]. split.
    { intros Hle. exfalso. exact (Qlt_not_le _ _ Ee Hle). }
    split; [|discriminate].
    intros Hle. exfalso. exact (Qlt_not_le _ _ Ee Hle).
  - apply Qgtb_false in Ee. destruct (Qgtb duration0 warn) eqn:Ew.
    + apply Qgtb_true in Ew. eexists. split; [reflexivity|].
      split. { intros Hlt. exfalso. exact (Qlt_not_le _ _ Hlt Ee). }
      split; [reflexivity|]. split.
      { intros _ Hle. exfalso. exact (Qlt_not_le _ _ Ew Hle). }
      intros Hew. exfalso.
      apply (Qlt_not_le _ _ Ew). now apply (Qle_trans _ err).
    + apply Qgtb_false in Ew. eexists. split; [reflexivity|].
      split. { intros Hlt. exfalso. exact (Qlt_not_le _ _ Hlt Ee). }
      split. { intros _ Hlt. exfalso. exact (Qlt_not_le _ _ Hlt Ew). }
      split; [reflexivity|discriminate].
Qed.

Lemma measureCallback_colour_witness :
  (0 < 100)%Q /\ (0 < 40)%Q
  /\ fmap color
       (highlightsState
          (measureCallback (fun _ => "12.5") Scenario.someOptions "Row"
             16%Q 12.5%Q 100%Q 40%Q 10%Q 20%Q init))
     = ["rgba(0, 255, 0, 0.5)"].
Proof.
  assert (Hw : (0 < 100)%Q) by reflexivity.
  assert (Hh : (0 < 40)%Q) by reflexivity.
  split; [exact Hw|]. split; [exact Hh|].
  destruct (measureCallback_colour (fun _ => "12.5") Scenario.someOptions
              "Row" 16%Q 12.5%Q 100%Q 40%Q 10%Q 20%Q init Hw Hh)
    as (c & -> & _ & _ & Hgreen & _).
  rewrite (Hgreen ltac:(discriminate) ltac:(discriminate)). reflexivity.
Defined.



End MeasureFacts.
